(** * hashmatch.py: duplicate detection over [.hashcheck] manifests

    A shallow embedding of [src/hashmatch.py] and the properties of its
    line parser, its hash index and its report lines.

    Layout:
    - [Py]: the Python [str] operations the script calls ([find], slicing,
      [lstrip], [rstrip]), with Python's index conventions on [Z];
    - [posixpath]: [os.path.join], [os.path.dirname], [os.path.basename]
      as CPython's [posixpath] module defines them;
    - the script itself: [parse_line], [scan_bucket], [process_record],
      [hashcheck], [main], threading an explicit [state];
    - the theorems. *)

From Stdlib Require Import ZArith String Ascii List Lia.
From stdpp Require Import base strings list gmap.

Local Open Scope string_scope.
Local Open Scope list_scope.
Local Open Scope Z_scope.

(** ** Python [str] primitives *)

Module Py.

(** [len(s)] *)
Definition len (s : string) : Z := Z.of_nat (String.length s).

(** How Python turns a slice or search bound into an offset in
    [0 .. n]: a negative bound counts from the end, and the result is
    clamped. *)
Definition clamp (n i : Z) : Z :=
  if i <? 0 then Z.max 0 (i + n) else Z.min i n.

(** [s[lo:hi]]; [None] is an omitted bound. *)
Definition slice (s : string) (lo hi : option Z) : string :=
  let n := len s in
  let a := match lo with Some i => clamp n i | None => 0 end in
  let b := match hi with Some j => clamp n j | None => n end in
  if a <? b then String.substring (Z.to_nat a) (Z.to_nat (b - a)) s else "".

(** Leftmost occurrence of [sub] in [s], scanning from offset [i]
    (the offset of the head of [s] in the original string). *)
Fixpoint find_at (sub s : string) (i : Z) : Z :=
  if String.prefix sub s then i
  else match s with
       | EmptyString => -1
       | String _ s' => find_at sub s' (i + 1)
       end.

(** [s.find(sub, start)]; [-1] when there is no occurrence, also when
    [start] lies beyond the end of [s]. *)
Definition find (s sub : string) (start : Z) : Z :=
  let n := len s in
  let st := if start <? 0 then Z.max 0 (start + n) else start in
  if n <? st then -1 else find_at sub (slice s (Some st) None) st.

(** Rightmost occurrence of [sub] in [s]; [i] as in [find_at]. *)
Fixpoint rfind_at (sub s : string) (i : Z) : Z :=
  let here := if String.prefix sub s then i else -1 in
  match s with
  | EmptyString => here
  | String _ s' =>
      let r := rfind_at sub s' (i + 1) in
      if r =? -1 then here else r
  end.

(** [s.rfind(sub)] *)
Definition rfind (s sub : string) : Z := rfind_at sub s 0.

(** Membership of a character in the character set that the argument
    of [lstrip] and [rstrip] denotes. *)
Definition mem (c : ascii) (chars : string) : bool :=
  existsb (Ascii.eqb c) (list_ascii_of_string chars).

(** [s.lstrip(chars)]: drops every leading character that belongs to
    [chars]; [chars] is a set of characters, not a prefix. *)
Fixpoint lstrip (s chars : string) : string :=
  match s with
  | EmptyString => EmptyString
  | String c s' => if mem c chars then lstrip s' chars else s
  end.

(** [s.rstrip(chars)]: the same at the right end. *)
Fixpoint rstrip (s chars : string) : string :=
  match s with
  | EmptyString => EmptyString
  | String c s' =>
      match rstrip s' chars with
      | EmptyString => if mem c chars then EmptyString else String c EmptyString
      | r => String c r
      end
  end.

(** [s.startswith(p)] and [s.endswith(p)] *)
Definition startswith (s p : string) : bool := String.prefix p s.

Definition endswith (s p : string) : bool :=
  String.eqb (slice s (Some (len s - len p)) None) p && (len p <=? len s).

End Py.

(** The line terminator and the field separator of a report line. *)
Definition nl : string := String (ascii_of_nat 10) EmptyString.
Definition tab : string := String (ascii_of_nat 9) EmptyString.

(** ** [os.path] on POSIX *)

Module posixpath.

Definition sep : string := "/".

(** [os.path.join(a, b)] with one component [b]. *)
Definition join (a b : string) : string :=
  if Py.startswith b sep then b
  else if String.eqb a "" || Py.endswith a sep then a +:+ b
  else a +:+ sep +:+ b.

(** [sep * n] *)
Fixpoint seps (n : nat) : string :=
  match n with
  | O => EmptyString
  | S k => sep +:+ seps k
  end.

(** [os.path.dirname(p)] *)
Definition dirname (p : string) : string :=
  let i := Py.rfind p sep + 1 in
  let head := Py.slice p None (Some i) in
  if negb (String.eqb head "") && negb (String.eqb head (seps (String.length head)))
  then Py.rstrip head sep
  else head.

(** [os.path.basename(p)] *)
Definition basename (p : string) : string :=
  let i := Py.rfind p sep + 1 in
  Py.slice p (Some i) None.

End posixpath.

(** ** The script *)

(** [files]: the module-level dict, hash -> list of (length, pathname)
    tuples in insertion order.  [stdout]: the lines printed so far, oldest
    first.  [open_files]: the paths for which [open] has succeeded, in
    the order of the calls; when the interpreter releases the descriptor
    of a file object that is no longer referenced is not modelled. *)
Record state : Type := State {
  files : gmap string (list (string * string));
  stdout : list string;
  open_files : list string
}.

Definition print (line : string) (st : state) : state :=
  State (files st) (stdout st ++ [line]) (open_files st).

Definition set_files (m : gmap string (list (string * string))) (st : state) : state :=
  State m (stdout st) (open_files st).

Definition opened (path : string) (st : state) : state :=
  State (files st) (stdout st) (open_files st ++ [path]).

(** ['%s\t%s\t%s\t%s\t%s\t%s\t%s\t%s\t%s' % (...)] *)
Definition report_fields (filehash len1 len2 path1 path2 : string) : list string :=
  [filehash; len1; len2;
   posixpath.dirname path1; posixpath.dirname path2;
   posixpath.basename path1; posixpath.basename path2;
   path1; path2].

Definition report_line (filehash len1 len2 path1 path2 : string) : string :=
  String.concat tab (report_fields filehash len1 len2 path1 path2).

(** Lines 42-46: the two separator searches and the three slices. *)
Definition split_fields (line : string) : string * string * string :=
  let sp1 := Py.find line " " 0 in
  let sp2 := Py.find line " " (sp1 + 1) in
  let filehash := Py.slice line (Some 0) (Some sp1) in
  let filelength := Py.slice line (Some (sp1 + 1)) (Some sp2) in
  let filepath := Py.slice line (Some (sp2 + 1)) None in
  (filehash, filelength, filepath).

(** Lines 42-47: the record of one manifest line of directory [dir]. *)
Definition parse_line (dir line : string) : string * string * string :=
  let '(filehash, filelength, filepath) := split_fields line in
  let filepath := posixpath.join dir (Py.rstrip (Py.lstrip filepath "./") nl) in
  (filehash, filelength, filepath).

(** Lines 59-68: the [for match in files[filehash]] loop with its
    [break]. *)
Fixpoint scan_bucket (filehash len1 path1 : string)
    (bucket : list (string * string)) (st : state) : state :=
  match bucket with
  | [] => st
  | (len2, path2) :: rest =>
      if String.eqb len1 len2
      then print (report_line filehash len1 len2 path1 path2) st
      else scan_bucket filehash len1 path1 rest st
  end.

(** Lines 53-75: what the loop body does with a parsed line. *)
Definition process_record (r : string * string * string) (st : state) : state :=
  let '(filehash, filelength, filepath) := r in
  if String.eqb filelength "0" then st
  else
    match files st !! filehash with
    | Some bucket =>
        let st := scan_bucket filehash filelength filepath bucket st in
        set_files (<[filehash := bucket ++ [(filelength, filepath)]]> (files st)) st
    | None =>
        set_files (<[filehash := [(filelength, filepath)]]> (files st)) st
    end.

(** The lines a text-mode file object yields: each ends after its
    ["\n"]; a last line without terminator is yielded as it is. *)
Fixpoint readlines (text : string) : list string :=
  match text with
  | EmptyString => []
  | String c rest =>
      if Ascii.eqb c (ascii_of_nat 10) then String c EmptyString :: readlines rest
      else match readlines rest with
           | [] => [String c EmptyString]
           | l :: ls => String c l :: ls
           end
  end.

Section Script.

(** The file system as [open(path, "r")] sees it: the text of the file
    (newlines already translated to ["\n"]), or [None] when [open]
    raises. *)
Variable disk : string -> option string.

(** Lines 29-75. *)
Definition hashcheck (dir : string) (st : state) : state :=
  let hashfile := posixpath.join dir ".hashcheck" in
  match disk hashfile with
  | None => print (dir +:+ ": no .hashcheck found") st
  | Some text =>
      let st := opened hashfile st in
      let st := print (dir +:+ ": processing .hashcheck") st in
      fold_left (fun st line => process_record (parse_line dir line) st)
                (readlines text) st
  end.

(** Lines 85-86, from any state. *)
Definition run (argv : list string) (st : state) : state :=
  fold_left (fun st dir => hashcheck (Py.rstrip dir "/") st) argv st.

(** Line 82: [files = {}]. *)
Definition initial : state := State ∅ [] [].

Definition main (argv : list string) : state := run argv initial.

End Script.

(** A file system given by a table of paths and texts. *)
Fixpoint disk_of (tbl : list (string * string)) (path : string) : option string :=
  match tbl with
  | [] => None
  | (p, text) :: rest => if String.eqb p path then Some text else disk_of rest path
  end.

(** ** Specification-side notions *)

(** The first entry of a bucket, in insertion order, whose length token
    is the given one. *)
Definition first_same_length (len1 : string) (bucket : list (string * string))
  : option (string * string) :=
  List.find (fun e => String.eqb len1 (fst e)) bucket.

(** No bucket of the index holds an entry of length ["0"]. *)
Definition no_zero_length (m : gmap string (list (string * string))) : Prop :=
  ∀ h bucket, m !! h = Some bucket → Forall (λ e, fst e ≠ "0") bucket.

(** The string without its last character (the empty string stays). *)
Fixpoint but_last (s : string) : string :=
  match s with
  | EmptyString => EmptyString
  | String c EmptyString => EmptyString
  | String c s' => String c (but_last s')
  end.

(** The path normalisation as the header comment of the script words it
    ("replacing the leading './' in the pathname with 'dir/'"): one
    leading ["./"] is removed, if present, and the line terminator, if
    present; the rest of the field is kept and joined to the directory. *)
Definition strip_dot_slash (raw : string) : string :=
  match raw with
  | String a (String b rest) =>
      if Ascii.eqb a "." && Ascii.eqb b "/" then rest else raw
  | _ => raw
  end.

Definition strip_terminator (raw : string) : string :=
  if Py.endswith raw nl then but_last raw else raw.

Definition documented_path (dir raw : string) : string :=
  posixpath.join dir (strip_terminator (strip_dot_slash raw)).

(** The manifest that a directory argument makes the script open, if it
    can be opened. *)
Definition manifest_opened (disk : string -> option string) (dir : string)
  : list string :=
  let hashfile := posixpath.join (Py.rstrip dir "/") ".hashcheck" in
  match disk hashfile with
  | Some _ => [hashfile]
  | None => []
  end.

(** The string holds no occurrence of the character. *)
Definition no_char (c : ascii) (s : string) : Prop :=
  ¬ In c (list_ascii_of_string s).

(** The string begins with neither a dot nor a slash. *)
Definition plain_start (s : string) : Prop :=
  match s with
  | String c _ => Py.mem c "./" = false
  | EmptyString => True
  end.

(** Lines 53-75 repeated over a list of records already parsed. *)
Definition process_records (rs : list (string * string * string)) (st : state)
  : state :=
  fold_left (fun st r => process_record r st) rs st.

(** The (length, path) entries that the records of hash [h] and of a
    length other than ["0"] carry, in the order of the records. *)
Definition entries_of (h : string) (rs : list (string * string * string))
  : list (string * string) :=
  flat_map (fun r : string * string * string =>
              let '(h', l, p) := r in
              if String.eqb h' h && negb (String.eqb l "0") then [(l, p)] else [])
           rs.


(** * Tests of the embedding on concrete inputs *)

Section PrimitiveTests.

Example find_first : Py.find "h1 100 ./x y" " " 0 = 2.
Proof. reflexivity. Qed.

Example find_second : Py.find "h1 100 ./x y" " " 3 = 6.
Proof. reflexivity. Qed.

Example find_none : Py.find "abc" " " 0 = -1.
Proof. reflexivity. Qed.

Example find_past_end : Py.find "abc" "" 5 = -1.
Proof. reflexivity. Qed.

Example slice_to_minus_one : Py.slice "abcd" (Some 0) (Some (-1)) = "abc".
Proof. reflexivity. Qed.

Example slice_empty : Py.slice "" (Some 0) (Some (-1)) = "".
Proof. reflexivity. Qed.

Example lstrip_set : Py.lstrip "../.a/b" "./" = "a/b".
Proof. reflexivity. Qed.

Example rstrip_nl : Py.rstrip ("a" +:+ nl +:+ "b" +:+ nl) nl = "a" +:+ nl +:+ "b".
Proof. reflexivity. Qed.

Example join_plain : posixpath.join "data" "sub/file.txt" = "data/sub/file.txt".
Proof. reflexivity. Qed.

Example join_slash : posixpath.join "data/" "f" = "data/f".
Proof. reflexivity. Qed.

Example join_empty : posixpath.join "" ".hashcheck" = ".hashcheck".
Proof. reflexivity. Qed.

Example join_abs : posixpath.join "data" "/etc" = "/etc".
Proof. reflexivity. Qed.

Example dirname_ex : posixpath.dirname "A/sub/x.bin" = "A/sub".
Proof. reflexivity. Qed.

Example dirname_root : posixpath.dirname "//x" = "//".
Proof. reflexivity. Qed.

Example dirname_none : posixpath.dirname "x" = "".
Proof. reflexivity. Qed.

Example basename_ex : posixpath.basename "A/sub/x.bin" = "x.bin".
Proof. reflexivity. Qed.

Example basename_dir : posixpath.basename "D/" = "".
Proof. reflexivity. Qed.

End PrimitiveTests.

Section ScriptTests.

Example readlines_ex :
  readlines ("a b c" +:+ nl +:+ nl +:+ "d") = ["a b c" +:+ nl; nl; "d"].
Proof. reflexivity. Qed.

Example parse_ex :
  parse_line "data" ("abc123 10 ./sub/my file.txt" +:+ nl)
  = ("abc123", "10", "data/sub/my file.txt").
Proof. reflexivity. Qed.

Example main_ex :
  stdout (main (disk_of [("A/.hashcheck", "h1 100 ./x.bin" +:+ nl);
                         ("B/.hashcheck", "h1 200 ./y.bin" +:+ nl)])
               ["A"; "C/"; "B"])
  = ["A: processing .hashcheck"; "C: no .hashcheck found";
     "B: processing .hashcheck"].
Proof. vm_compute. reflexivity. Qed.

End ScriptTests.

(** * Lemmas *)

(** ** Facts about the scan loop *)

Section Scan.

Variables filehash len1 path1 : string.

Lemma scan_bucket_files bucket st :
  files (scan_bucket filehash len1 path1 bucket st) = files st.
Proof.
  induction bucket as [|[len2 path2] rest IH]; simpl; [done|].
  destruct (String.eqb len1 len2); [done | apply IH].
Qed.

Lemma scan_bucket_open_files bucket st :
  open_files (scan_bucket filehash len1 path1 bucket st) = open_files st.
Proof.
  induction bucket as [|[len2 path2] rest IH]; simpl; [done|].
  destruct (String.eqb len1 len2); [done | apply IH].
Qed.

(** The loop prints the report of the first entry of equal length and
    nothing else. *)
Lemma scan_bucket_stdout bucket st :
  stdout (scan_bucket filehash len1 path1 bucket st)
  = stdout st ++
    match first_same_length len1 bucket with
    | Some (len2, path2) => [report_line filehash len1 len2 path1 path2]
    | None => []
    end.
Proof.
  unfold first_same_length.
  induction bucket as [|[len2 path2] rest IH]; simpl.
  - by rewrite app_nil_r.
  - destruct (String.eqb len1 len2); [done | apply IH].
Qed.

Lemma first_same_length_None bucket :
  first_same_length len1 bucket = None ↔ Forall (λ e, fst e ≠ len1) bucket.
Proof.
  unfold first_same_length.
  induction bucket as [|[len2 path2] rest IH]; simpl.
  - split; [constructor | done].
  - destruct (String.eqb_spec len1 len2) as [->|Hne].
    + split; [done | inversion 1; simpl in *; congruence].
    + rewrite IH. split.
      * intros H. constructor; [simpl; congruence | done].
      * by inversion 1.
Qed.

Lemma first_same_length_Some bucket len2 path2 :
  first_same_length len1 bucket = Some (len2, path2) ↔
  ∃ before after,
    bucket = before ++ (len2, path2) :: after ∧
    Forall (λ e, fst e ≠ len1) before ∧ len2 = len1.
Proof.
  unfold first_same_length.
  induction bucket as [|[len path] rest IH]; simpl.
  - split; [done|]. intros (before & after & Heq & _).
    by destruct before.
  - destruct (String.eqb_spec len1 len) as [->|Hne].
    + split.
      * intros [= -> ->]. by exists [], rest.
      * intros (before & after & Heq & Hall & ->).
        destruct before as [|[l p] before]; simpl in Heq.
        -- by injection Heq as -> ->.
        -- injection Heq as -> -> ->. inversion Hall; simpl in *; congruence.
    + rewrite IH. split.
      * intros (before & after & -> & Hall & ->).
        exists ((len, path) :: before), after. split; [done|].
        split; [|done]. constructor; [simpl; congruence | done].
      * intros (before & after & Heq & Hall & ->).
        destruct before as [|[l p] before]; simpl in Heq.
        -- injection Heq as -> ->. congruence.
        -- injection Heq as -> -> ->. exists before, after.
           split; [done|]. split; [|done]. by inversion Hall.
Qed.

End Scan.

(** ** Facts about one loop iteration *)

Lemma process_record_zero filehash filepath st :
  process_record (filehash, "0", filepath) st = st.
Proof. reflexivity. Qed.

Lemma process_record_nonzero filehash filelength filepath st :
  filelength ≠ "0" →
  process_record (filehash, filelength, filepath) st
  = match files st !! filehash with
    | Some bucket =>
        let st' := scan_bucket filehash filelength filepath bucket st in
        set_files (<[filehash := bucket ++ [(filelength, filepath)]]> (files st')) st'
    | None => set_files (<[filehash := [(filelength, filepath)]]> (files st)) st
    end.
Proof.
  intros Hne. unfold process_record.
  by destruct (String.eqb_spec filelength "0").
Qed.

Lemma process_record_open_files r st :
  open_files (process_record r st) = open_files st.
Proof.
  destruct r as [[filehash filelength] filepath]. unfold process_record.
  destruct (String.eqb filelength "0"); [done|].
  destruct (files st !! filehash); simpl; [|done].
  apply scan_bucket_open_files.
Qed.

Lemma process_record_stdout filehash filelength filepath st :
  filelength ≠ "0" →
  stdout (process_record (filehash, filelength, filepath) st)
  = stdout st ++
    match first_same_length filelength (default [] (files st !! filehash)) with
    | Some (len2, path2) => [report_line filehash filelength len2 filepath path2]
    | None => []
    end.
Proof.
  intros Hne. rewrite process_record_nonzero by done.
  destruct (files st !! filehash) as [bucket|]; simpl.
  - apply scan_bucket_stdout.
  - by rewrite app_nil_r.
Qed.

Lemma process_record_bucket filehash filelength filepath st :
  filelength ≠ "0" →
  files (process_record (filehash, filelength, filepath) st) !! filehash
  = Some (default [] (files st !! filehash) ++ [(filelength, filepath)]).
Proof.
  intros Hne. rewrite process_record_nonzero by done.
  destruct (files st !! filehash) as [bucket|]; simpl;
    by rewrite lookup_insert_eq.
Qed.

Lemma process_record_other filehash filelength filepath st h :
  h ≠ filehash →
  files (process_record (filehash, filelength, filepath) st) !! h = files st !! h.
Proof.
  intros Hne. unfold process_record.
  destruct (String.eqb filelength "0"); [done|].
  destruct (files st !! filehash) as [bucket|]; simpl;
    rewrite lookup_insert_ne by done; [|done].
  by rewrite scan_bucket_files.
Qed.

Lemma process_record_no_zero r st :
  no_zero_length (files st) → no_zero_length (files (process_record r st)).
Proof.
  destruct r as [[filehash filelength] filepath]. intros Hinv.
  destruct (String.eqb_spec filelength "0") as [->|Hne]; [done|].
  intros h bucket Hlook.
  destruct (decide (h = filehash)) as [->|Hh].
  - rewrite process_record_bucket in Hlook by done.
    injection Hlook as <-. apply Forall_app. split.
    + destruct (files st !! filehash) as [old|] eqn:Hold; simpl; [|constructor].
      by apply (Hinv filehash).
    + by repeat constructor.
  - rewrite process_record_other in Hlook by done. by apply (Hinv h).
Qed.

(** ** Facts about a whole manifest and a whole run *)

Section Runs.

Variable disk : string -> option string.

Lemma fold_lines_no_zero dir lines st :
  no_zero_length (files st) →
  no_zero_length
    (files (fold_left (fun st line => process_record (parse_line dir line) st)
                      lines st)).
Proof.
  revert st. induction lines as [|line lines IH]; intros st Hinv;
    cbn [fold_left]; [done|].
  apply IH, process_record_no_zero, Hinv.
Qed.

Lemma fold_lines_open_files dir lines st :
  open_files (fold_left (fun st line => process_record (parse_line dir line) st)
                        lines st)
  = open_files st.
Proof.
  revert st. induction lines as [|line lines IH]; intros st;
    cbn [fold_left]; [done|].
  by rewrite IH, process_record_open_files.
Qed.

Lemma hashcheck_no_zero dir st :
  no_zero_length (files st) → no_zero_length (files (hashcheck disk dir st)).
Proof.
  intros Hinv. unfold hashcheck.
  destruct (disk (posixpath.join dir ".hashcheck")) as [text|]; [|done].
  apply fold_lines_no_zero, Hinv.
Qed.

Lemma run_no_zero argv st :
  no_zero_length (files st) → no_zero_length (files (run disk argv st)).
Proof.
  unfold run. revert st.
  induction argv as [|dir argv IH]; intros st Hinv; cbn [fold_left]; [done|].
  apply IH, hashcheck_no_zero, Hinv.
Qed.

Lemma run_cons dir argv st :
  run disk (dir :: argv) st = run disk argv (hashcheck disk (Py.rstrip dir "/") st).
Proof. reflexivity. Qed.

Lemma hashcheck_missing dir st :
  disk (posixpath.join dir ".hashcheck") = None →
  hashcheck disk dir st = print (dir +:+ ": no .hashcheck found") st.
Proof. intros H. unfold hashcheck. by rewrite H. Qed.

Lemma hashcheck_open_files dir st :
  open_files (hashcheck disk dir st)
  = open_files st ++
    match disk (posixpath.join dir ".hashcheck") with
    | Some _ => [posixpath.join dir ".hashcheck"]
    | None => []
    end.
Proof.
  unfold hashcheck.
  destruct (disk (posixpath.join dir ".hashcheck")) as [text|].
  - by rewrite fold_lines_open_files.
  - cbn [print open_files]. by rewrite app_nil_r.
Qed.

End Runs.

(** ** Lines without a space *)

Section SpaceFree.

Lemma substring_all s : String.substring 0 (String.length s) s = s.
Proof. induction s as [|c s IH]; simpl; [done | by rewrite IH]. Qed.

Lemma substring_but_last s :
  String.substring 0 (String.length s - 1) s = but_last s.
Proof.
  induction s as [|c s IH]; [done|].
  destruct s as [|c' s']; [done|].
  change (but_last (String c (String c' s')))
    with (String c (but_last (String c' s'))).
  rewrite <- IH.
  replace (String.length (String c (String c' s')) - 1)%nat
    with (S (String.length (String c' s') - 1)) by (simpl; lia).
  reflexivity.
Qed.

Lemma len_nonneg s : 0 <= Py.len s.
Proof. unfold Py.len. lia. Qed.

Lemma clamp_0 n : 0 <= n → Py.clamp n 0 = 0.
Proof. intros Hn. unfold Py.clamp. destruct (Z.ltb_spec 0 0); lia. Qed.

Lemma clamp_minus_1 n : 0 <= n → Py.clamp n (-1) = Z.max 0 (n - 1).
Proof. intros Hn. unfold Py.clamp. destruct (Z.ltb_spec (-1) 0); lia. Qed.

Lemma slice_from_0 s : Py.slice s (Some 0) None = s.
Proof.
  unfold Py.slice. rewrite clamp_0 by apply len_nonneg.
  destruct (Z.ltb_spec 0 (Py.len s)) as [Hlt|Hge].
  - unfold Py.len. rewrite Z.sub_0_r, Nat2Z.id. apply substring_all.
  - destruct s; [done | unfold Py.len in Hge; simpl in Hge; lia].
Qed.

Lemma slice_0_minus_1 s : Py.slice s (Some 0) (Some (-1)) = but_last s.
Proof.
  unfold Py.slice.
  rewrite clamp_0, clamp_minus_1 by apply len_nonneg.
  destruct (Z.ltb_spec 0 (Z.max 0 (Py.len s - 1))) as [Hlt|Hge].
  - replace (Z.to_nat (Z.max 0 (Py.len s - 1) - 0))
      with (String.length s - 1)%nat by (unfold Py.len in *; lia).
    apply substring_but_last.
  - destruct s as [|c [|c' s']]; [done | done |].
    unfold Py.len in Hge. simpl in Hge. lia.
Qed.

Lemma find_at_no_space s i :
  ¬ In " "%char (list_ascii_of_string s) → Py.find_at " " s i = -1.
Proof.
  revert i. induction s as [|c s IH]; intros i Hno; [done|].
  cbn [list_ascii_of_string In] in Hno.
  cbn [Py.find_at String.prefix].
  destruct (ascii_dec " " c) as [Heq|Hc].
  - exfalso. apply Hno. by left.
  - apply IH. intros Hin. apply Hno. by right.
Qed.

Lemma find_no_space s :
  ¬ In " "%char (list_ascii_of_string s) → Py.find s " " 0 = -1.
Proof.
  intros Hno. unfold Py.find.
  destruct (Z.ltb_spec 0 0) as [Hlt|_]; [lia|].
  destruct (Z.ltb_spec (Py.len s) 0) as [Hlt|Hge].
  - pose proof (len_nonneg s). lia.
  - rewrite slice_from_0. by apply find_at_no_space.
Qed.

Lemma split_fields_no_space line :
  ¬ In " "%char (list_ascii_of_string line) →
  split_fields line = (but_last line, but_last line, line).
Proof.
  intros Hno. unfold split_fields. rewrite find_no_space by done.
  change (-1 + 1) with 0. rewrite find_no_space by done.
  change (-1 + 1) with 0. by rewrite slice_0_minus_1, slice_from_0.
Qed.

End SpaceFree.

(** ** Where [lstrip] and the removal of one prefix agree *)

(** When what follows the single leading ["./"] (or the whole field, if
    there is none) begins with neither a dot nor a slash, [lstrip('./')]
    removes that prefix and nothing more. *)
Lemma lstrip_single_prefix raw :
  match strip_dot_slash raw with
  | String c _ => Py.mem c "./" = false
  | EmptyString => True
  end →
  Py.lstrip raw "./" = strip_dot_slash raw.
Proof.
  assert (∀ s, match s with
               | String c _ => Py.mem c "./" = false
               | EmptyString => True
               end → Py.lstrip s "./" = s) as Hplain.
  { intros [|c s] H; [done|]. simpl. by rewrite H. }
  destruct raw as [|a [|b rest]]; [done | apply Hplain |].
  unfold strip_dot_slash.
  destruct (Ascii.eqb_spec a ".") as [->|Ha];
    [destruct (Ascii.eqb_spec b "/") as [->|Hb]|];
    cbn [andb]; intros H.
  - change (Py.lstrip rest "./" = rest). by apply Hplain.
  - by apply Hplain.
  - by apply Hplain.
Qed.

(** * The claims *)

(** C1, as the code has it. With [A/.hashcheck] holding the line
    [h1 100 ./x.bin] and [B/.hashcheck] the line [h1 100 ./y.bin] (each
    with or without a final line terminator), the run on [A] then [B]
    prints the two progress lines and exactly one match line, in which the
    first of each pair of fields is that of [B/y.bin], the record being
    processed, and the second that of [A/x.bin], the entry stored
    before. *)
Theorem end_to_end_match (eolA eolB : bool) :
  let eol (b : bool) := if b then nl else "" in
  let disk := disk_of [("A/.hashcheck", "h1 100 ./x.bin" +:+ eol eolA);
                       ("B/.hashcheck", "h1 100 ./y.bin" +:+ eol eolB)] in
  stdout (main disk ["A"; "B"])
  = ["A: processing .hashcheck";
     "B: processing .hashcheck";
     "h1" +:+ tab +:+ "100" +:+ tab +:+ "100" +:+ tab +:+ "B" +:+ tab +:+ "A"
       +:+ tab +:+ "y.bin" +:+ tab +:+ "x.bin" +:+ tab +:+ "B/y.bin"
       +:+ tab +:+ "A/x.bin"].
Proof. destruct eolA, eolB; vm_compute; reflexivity. Qed.

(** C1, as the claim states it, fails: the line with the fields of [A]
    first is not printed. *)
Lemma end_to_end_counterexample :
  let disk := disk_of [("A/.hashcheck", "h1 100 ./x.bin" +:+ nl);
                       ("B/.hashcheck", "h1 100 ./y.bin" +:+ nl)] in
  ¬ In ("h1" +:+ tab +:+ "100" +:+ tab +:+ "100" +:+ tab +:+ "A" +:+ tab +:+ "B"
          +:+ tab +:+ "x.bin" +:+ tab +:+ "y.bin" +:+ tab +:+ "A/x.bin"
          +:+ tab +:+ "B/y.bin")
       (stdout (main disk ["A"; "B"])).
Proof. vm_compute. intros [H|[H|[H|[]]]]; discriminate H. Qed.

(** C2 at a hidden file. The manifest line [abc123 10 ./.gitignore] of
    directory [data] has the raw path field [./.gitignore]; removing one
    leading [./] and the terminator gives [data/.gitignore], while
    [lstrip('./')] removes every leading dot and slash and the script
    records [data/gitignore]. *)
Theorem path_normalization_hidden_file :
  let line := "abc123 10 ./.gitignore" +:+ nl in
  split_fields line = ("abc123", "10", "./.gitignore" +:+ nl)
  ∧ parse_line "data" line = ("abc123", "10", "data/gitignore")
  ∧ documented_path "data" ("./.gitignore" +:+ nl) = "data/.gitignore"
  ∧ parse_line "data" ("abc123 10 ./sub/file.txt" +:+ nl)
    = ("abc123", "10", "data/sub/file.txt").
Proof. vm_compute. auto. Qed.

(** C3. First match only: when the hash of a record (of non-zero length)
    is already in the index and its bucket, read in insertion order, is
    [before ++ (len2, path2) :: after] with no entry of [before] of the
    record's length and [len2] equal to it, processing the record prints
    exactly one report line, the one that pairs the record with
    [(len2, path2)], whatever [after] holds: the scan stops at the first
    entry of equal length. *)
Theorem first_match_only filehash len1 path1 st bucket before len2 path2 after :
  len1 ≠ "0" →
  files st !! filehash = Some bucket →
  bucket = before ++ (len2, path2) :: after →
  Forall (λ e, fst e ≠ len1) before →
  len2 = len1 →
  stdout (process_record (filehash, len1, path1) st)
  = stdout st ++ [report_line filehash len1 len2 path1 path2].
Proof.
  intros Hne Hlook Hsplit Hbefore Hlen.
  rewrite process_record_stdout by done. rewrite Hlook. simpl.
  assert (first_same_length len1 bucket = Some (len2, path2)) as ->; [|done].
  apply first_same_length_Some. by exists before, after.
Qed.

(** The bucket with lengths 5, 5, 7 and a new record of length 5: one
    report, against the first entry of length 5. *)
Lemma first_match_only_witness :
  let bucket := [("5", "A/a"); ("5", "A/b"); ("7", "A/c")] in
  let st := State {[ "h" := bucket ]} [] [] in
  stdout (process_record ("h", "5", "B/d") st)
  = [report_line "h" "5" "5" "B/d" "A/a"].
Proof.
  intros bucket st.
  apply (first_match_only "h" "5" "B/d" st bucket
           [] "5" "A/a" [("5", "A/b"); ("7", "A/c")]).
  - discriminate.
  - reflexivity.
  - reflexivity.
  - constructor.
  - reflexivity.
Defined.

(** C4. Zero-length exclusion: processing a record whose length token is
    ["0"] returns the state as it was (no line printed, index untouched),
    whatever its hash and whatever the index holds; and in every run of
    the script, on every file system and argument list, no bucket of the
    final index holds an entry of length ["0"]. *)
Theorem zero_length_excluded :
  (∀ filehash filepath st, process_record (filehash, "0", filepath) st = st) ∧
  (∀ disk argv, no_zero_length (files (main disk argv))).
Proof.
  split.
  - intros. apply process_record_zero.
  - intros disk argv. apply run_no_zero. intros h bucket Hlook.
    cbn [initial files] in Hlook. by rewrite lookup_empty in Hlook.
Qed.

(** Two zero-length records and one other under the same hash. *)
Lemma zero_length_excluded_witness :
  let disk := disk_of [("A/.hashcheck",
                        "h 0 ./a" +:+ nl +:+ "h 0 ./b" +:+ nl +:+ "h 5 ./c" +:+ nl)] in
  process_record ("h", "0", "A/b") (process_record ("h", "0", "A/a") initial)
  = initial
  ∧ no_zero_length (files (main disk ["A"])).
Proof.
  intros disk. split.
  - rewrite !(proj1 zero_length_excluded). reflexivity.
  - apply (proj2 zero_length_excluded).
Defined.

(** C5. Length compared as text: for a record of non-zero length whose
    hash has a bucket, the step prints exactly the report against the
    first entry whose length token is the record's, as a string, and
    exactly nothing when every entry has a different token. So the output
    is either empty, and then no entry has the record's token, or one
    line, against an entry of the bucket whose token is equal to the
    record's; tokens that differ as strings give no report, however they
    read as numbers. In every case the record joins the bucket. *)
Theorem length_compared_as_text filehash len1 path1 st bucket :
  len1 ≠ "0" →
  files st !! filehash = Some bucket →
  let st' := process_record (filehash, len1, path1) st in
  stdout st'
  = stdout st ++
    match first_same_length len1 bucket with
    | Some (len2, path2) => [report_line filehash len1 len2 path1 path2]
    | None => []
    end
  ∧ (∃ out, stdout st' = stdout st ++ out ∧
       ((out = [] ∧ Forall (λ e, fst e ≠ len1) bucket)
        ∨ (∃ len2 path2, (len2, path2) ∈ bucket ∧ len2 = len1 ∧
             out = [report_line filehash len1 len2 path1 path2])))
  ∧ (∀ line, stdout st' = stdout st ++ [line] →
       ∃ len2 path2, (len2, path2) ∈ bucket ∧ len2 = len1 ∧
                     line = report_line filehash len1 len2 path1 path2)
  ∧ (Forall (λ e, fst e ≠ len1) bucket → stdout st' = stdout st)
  ∧ files st' !! filehash = Some (bucket ++ [(len1, path1)]).
Proof.
  intros Hne Hlook st'. subst st'.
  rewrite process_record_stdout, process_record_bucket by done.
  rewrite Hlook. cbn [default id].
  split; [done|]. split; [|split; [|split; [|done]]].
  - destruct (first_same_length len1 bucket) as [[len2 path2]|] eqn:Hfirst.
    + eexists. split; [done|]. right. exists len2, path2.
      apply first_same_length_Some in Hfirst as (before & after & -> & _ & ->).
      split; [|done]. apply elem_of_app. right. apply list_elem_of_here.
    + exists []. split; [done|]. left. split; [done|].
      by apply first_same_length_None.
  - intros line Hout. apply app_inv_head in Hout.
    destruct (first_same_length len1 bucket) as [[len2 path2]|] eqn:Hfirst; [|done].
    injection Hout as <-. exists len2, path2.
    apply first_same_length_Some in Hfirst as (before & after & -> & _ & ->).
    split; [|done]. apply elem_of_app. right. apply list_elem_of_here.
  - intros Hall. apply first_same_length_None in Hall. rewrite Hall.
    by rewrite app_nil_r.
Qed.

(** Tokens ["10"] and ["010"] under one hash: a record of length ["010"]
    is not reported against an entry of length ["10"], and when the
    bucket holds both tokens it is reported once, against the entry of
    length ["010"]. *)
Lemma length_compared_as_text_witness :
  let st := State {[ "h" := [("10", "A/a")] ]} [] [] in
  let st' := process_record ("h", "010", "B/b") st in
  let both := State {[ "h" := [("10", "A/a"); ("010", "A/b")] ]} [] [] in
  (stdout st' = [] ∧ files st' !! "h" = Some [("10", "A/a"); ("010", "B/b")])
  ∧ stdout (process_record ("h", "010", "B/c") both)
    = [report_line "h" "010" "010" "B/c" "A/b"].
Proof.
  intros st st' both. split.
  - destruct (length_compared_as_text "h" "010" "B/b" st [("10", "A/a")])
      as (_ & _ & _ & Hnone & Hbucket).
    + discriminate.
    + reflexivity.
    + split; [apply Hnone | apply Hbucket].
      repeat constructor. discriminate.
  - destruct (length_compared_as_text "h" "010" "B/c" both
                [("10", "A/a"); ("010", "A/b")]) as (Hexact & _).
    + discriminate.
    + reflexivity.
    + exact Hexact.
Defined.

(** C6. Check before append: for a record of non-zero length, with [pre]
    the bucket of its hash before the step (empty when the hash is
    absent), the lines printed are those of the scan of [pre], the bucket
    afterwards is [pre] followed by the record, and other buckets are
    untouched; a report, if any, is against an entry at an index below
    [length pre], the index at which the record itself is stored, so never
    against the record itself; and when the hash is absent the new bucket
    holds the record alone and nothing is printed. *)
Theorem check_before_append filehash filelength filepath st :
  filelength ≠ "0" →
  let st' := process_record (filehash, filelength, filepath) st in
  let pre := default [] (files st !! filehash) in
  stdout st' = stdout (scan_bucket filehash filelength filepath pre st)
  ∧ files st' !! filehash = Some (pre ++ [(filelength, filepath)])
  ∧ (∀ h, h ≠ filehash → files st' !! h = files st !! h)
  ∧ (∀ line, stdout st' = stdout st ++ [line] →
       ∃ i len2 path2,
         (i < length pre)%nat ∧ pre !! i = Some (len2, path2) ∧
         line = report_line filehash filelength len2 filepath path2 ∧
         (pre ++ [(filelength, filepath)]) !! length pre
         = Some (filelength, filepath))
  ∧ (files st !! filehash = None →
       stdout st' = stdout st ∧
       files st' !! filehash = Some [(filelength, filepath)]).
Proof.
  intros Hne st' pre. subst st'.
  split; [|split; [|split; [|split]]].
  - rewrite process_record_stdout, scan_bucket_stdout; done.
  - by apply process_record_bucket.
  - intros h Hh. by apply process_record_other.
  - intros line Hout. rewrite process_record_stdout in Hout by done.
    apply app_inv_head in Hout. fold pre in Hout.
    destruct (first_same_length filelength pre) as [[len2 path2]|] eqn:Hfirst;
      [|done].
    injection Hout as <-.
    apply first_same_length_Some in Hfirst as (before & after & Hpre & _ & _).
    exists (length before), len2, path2. rewrite Hpre.
    split; [rewrite length_app; simpl; lia|].
    split; [apply list_lookup_middle; done|].
    split; [done|]. apply list_lookup_middle. done.
  - intros Habsent. subst pre.
    rewrite process_record_stdout, process_record_bucket by done.
    rewrite Habsent. simpl. by rewrite app_nil_r.
Qed.

(** Two records of one hash and one length, from the empty index: the
    first is stored without a report, the second is reported against the
    first. *)
Lemma check_before_append_witness :
  let st1 := process_record ("h", "7", "A/a") initial in
  let st2 := process_record ("h", "7", "B/b") st1 in
  (stdout st1 = [] ∧ files st1 !! "h" = Some [("7", "A/a")])
  ∧ files st2 !! "h" = Some [("7", "A/a"); ("7", "B/b")].
Proof.
  intros st1 st2. split.
  - destruct (check_before_append "h" "7" "A/a" initial) as (_ & _ & _ & _ & Habs).
    + discriminate.
    + apply Habs. reflexivity.
  - destruct (check_before_append "h" "7" "B/b" st1) as (_ & Hb & _).
    + discriminate.
    + exact Hb.
Defined.



(** The paths that a run passes to a successful [open] are the manifests
    of its arguments that can be opened, in argument order. *)
Lemma run_open_files disk argv st :
  open_files (run disk argv st)
  = open_files st ++ flat_map (manifest_opened disk) argv.
Proof.
  revert st. induction argv as [|dir argv IH]; intros st.
  - simpl. by rewrite app_nil_r.
  - rewrite run_cons, IH, hashcheck_open_files.
    cbn [flat_map]. unfold manifest_opened at 2.
    by rewrite app_assoc.
Qed.

(** C9. Field order: whenever processing a record prints a line, the line
    is the nine tab-separated fields in which the second, fourth, sixth
    and eighth are the length, directory name, base name and path of the
    record being processed, and the third, fifth, seventh and ninth are
    those of an entry already in the bucket of its hash. *)
Theorem report_field_order filehash len1 path1 st line :
  stdout (process_record (filehash, len1, path1) st) = stdout st ++ [line] →
  ∃ bucket i len2 path2,
    files st !! filehash = Some bucket ∧ bucket !! i = Some (len2, path2) ∧
    line = String.concat tab
             [filehash; len1; len2;
              posixpath.dirname path1; posixpath.dirname path2;
              posixpath.basename path1; posixpath.basename path2;
              path1; path2].
Proof.
  intros Hout.
  destruct (String.eqb_spec len1 "0") as [->|Hne].
  - rewrite process_record_zero in Hout.
    rewrite <- (app_nil_r (stdout st)) in Hout at 1.
    by apply app_inv_head in Hout.
  - rewrite process_record_stdout in Hout by done.
    apply app_inv_head in Hout.
    destruct (files st !! filehash) as [bucket|]; [|done]. simpl in Hout.
    destruct (first_same_length len1 bucket) as [[len2 path2]|] eqn:Hfirst;
      [|done].
    injection Hout as <-.
    apply first_same_length_Some in Hfirst as (before & after & -> & _ & _).
    exists (before ++ (len2, path2) :: after), (length before), len2, path2.
    split; [done|]. split; [|done]. by apply list_lookup_middle.
Qed.

(** The record of [B/y.bin] against the stored entry of [A/x.bin]. *)
Lemma report_field_order_witness :
  let st := State {[ "h1" := [("100", "A/x.bin")] ]} [] [] in
  ∃ bucket i len2 path2,
    files st !! "h1" = Some bucket ∧ bucket !! i = Some (len2, path2) ∧
    "h1" +:+ tab +:+ "100" +:+ tab +:+ "100" +:+ tab +:+ "B" +:+ tab +:+ "A"
      +:+ tab +:+ "y.bin" +:+ tab +:+ "x.bin" +:+ tab +:+ "B/y.bin"
      +:+ tab +:+ "A/x.bin"
    = String.concat tab
        [ "h1"; "100"; len2;
          posixpath.dirname "B/y.bin"; posixpath.dirname path2;
          posixpath.basename "B/y.bin"; posixpath.basename path2;
          "B/y.bin"; path2].
Proof.
  intros st.
  apply (report_field_order "h1" "100" "B/y.bin" st).
  reflexivity.
Defined.

(** C10. Lines without a space: [parse_line] is a total function ([find]
    and slicing never raise); on a line with no space both searches
    return -1, the hash and the length are the line without its last
    character and the raw path is the whole line; unless that length is
    ["0"] the record is appended to the bucket of that hash like any
    other; and a second copy of such a line is reported against the
    first. *)
Theorem space_free_line_parsing dir line st :
  ¬ In " "%char (list_ascii_of_string line) →
  let token := but_last line in
  let path := posixpath.join dir (Py.rstrip (Py.lstrip line "./") nl) in
  let r := parse_line dir line in
  Py.find line " " 0 = -1
  ∧ Py.find line " " (-1 + 1) = -1
  ∧ split_fields line = (token, token, line)
  ∧ r = (token, token, path)
  ∧ (token ≠ "0" →
       files (process_record r st) !! token
       = Some (default [] (files st !! token) ++ [(token, path)]))
  ∧ (token ≠ "0" → files st !! token = None →
       stdout (process_record r (process_record r st))
       = stdout st ++ [report_line token token token path path]).
Proof.
  intros Hno token path r.
  assert (r = (token, token, path)) as Hr.
  { subst r. unfold parse_line. by rewrite split_fields_no_space. }
  split; [by apply find_no_space|].
  split; [by apply find_no_space|].
  split; [by apply split_fields_no_space|].
  split; [done|]. rewrite Hr. split.
  - intros Hne. by apply process_record_bucket.
  - intros Hne Habsent.
    rewrite (process_record_stdout token token path (process_record _ st)) by done.
    rewrite process_record_bucket, process_record_stdout by done.
    rewrite Habsent. unfold first_same_length. cbn [default app id List.find fst].
    rewrite String.eqb_refl. by rewrite app_nil_r.
Qed.

(** Two empty lines in the manifest of directory [D]. *)
Lemma space_free_line_parsing_witness :
  parse_line "D" nl = ("", "", "D/")
  ∧ stdout (process_record (parse_line "D" nl)
              (process_record (parse_line "D" nl) initial))
    = [tab +:+ tab +:+ tab +:+ "D" +:+ tab +:+ "D" +:+ tab +:+ tab +:+ tab
       +:+ "D/" +:+ tab +:+ "D/"].
Proof.
  destruct (space_free_line_parsing "D" nl initial)
    as (_ & _ & _ & Hparse & _ & Htwice).
  - intros [Hsp|[]]. discriminate Hsp.
  - split; [exact Hparse|]. apply Htwice; [discriminate | reflexivity].
Defined.

(** * Further properties of the script *)

(** ** Strings: append, length, slices of a concatenation *)

Lemma str_app_cons x (a b : string) : String x a +:+ b = String x (a +:+ b).
Proof. reflexivity. Qed.

Lemma str_app_assoc (a b c : string) : (a +:+ b) +:+ c = a +:+ b +:+ c.
Proof.
  induction a as [|x a IH]; [done|]. rewrite !str_app_cons. by f_equal.
Qed.

Lemma str_app_nil_r (a : string) : a +:+ "" = a.
Proof.
  induction a as [|x a IH]; [done|]. rewrite str_app_cons. by f_equal.
Qed.

Lemma len_app (a b : string) : Py.len (a +:+ b) = Py.len a + Py.len b.
Proof.
  unfold Py.len. induction a as [|x a IH].
  - change ("" +:+ b) with b. simpl. lia.
  - rewrite str_app_cons. cbn [String.length].
    rewrite !Nat2Z.inj_succ. lia.
Qed.

Lemma substring_skip (a b : string) n :
  String.substring (String.length a) n (a +:+ b) = String.substring 0 n b.
Proof.
  induction a as [|x a IH]; [done|]. rewrite str_app_cons. apply IH.
Qed.

Lemma substring_prefix (b c : string) :
  String.substring 0 (String.length b) (b +:+ c) = b.
Proof.
  induction b as [|x b IH].
  - by destruct c.
  - rewrite str_app_cons. cbn [String.length String.substring]. by f_equal.
Qed.

Lemma clamp_inside n i : 0 <= i <= n → Py.clamp n i = i.
Proof. intros Hi. unfold Py.clamp. destruct (Z.ltb_spec i 0); lia. Qed.

(** [(a + b + c)[len(a) : len(a) + len(b)] = b] *)
Lemma slice_middle (a b c : string) :
  Py.slice (a +:+ b +:+ c) (Some (Py.len a)) (Some (Py.len a + Py.len b)) = b.
Proof.
  pose proof (len_nonneg a). pose proof (len_nonneg b). pose proof (len_nonneg c).
  unfold Py.slice. rewrite !len_app. rewrite !clamp_inside by lia.
  destruct (Z.ltb_spec (Py.len a) (Py.len a + Py.len b)) as [Hlt|Hge].
  - replace (Z.to_nat (Py.len a)) with (String.length a)
      by (unfold Py.len; lia).
    replace (Z.to_nat (Py.len a + Py.len b - Py.len a)) with (String.length b)
      by (unfold Py.len; lia).
    rewrite substring_skip. apply substring_prefix.
  - destruct b; [done | unfold Py.len in Hge; simpl in Hge; lia].
Qed.

(** [(a + b)[len(a):] = b] *)
Lemma slice_suffix (a b : string) :
  Py.slice (a +:+ b) (Some (Py.len a)) None = b.
Proof.
  pose proof (slice_middle a b "") as H.
  rewrite str_app_nil_r in H. rewrite <- H at 2.
  pose proof (len_nonneg a). pose proof (len_nonneg b).
  unfold Py.slice. rewrite !len_app. by rewrite !clamp_inside by lia.
Qed.

(** [(b + c)[0 : len(b)] = b] *)
Lemma slice_prefix (b c : string) :
  Py.slice (b +:+ c) (Some 0) (Some (Py.len b)) = b.
Proof. apply (slice_middle "" b c). Qed.

(** The first space of [h + " " + rest], searched from the head of [h],
    is right after [h] when [h] holds none. *)
Lemma find_at_first_space (h rest : string) i :
  ¬ In " "%char (list_ascii_of_string h) →
  Py.find_at " " (h +:+ " " +:+ rest) i = i + Py.len h.
Proof.
  revert i. induction h as [|c h IH]; intros i Hno.
  - change ("" +:+ " " +:+ rest) with (String " " rest).
    unfold Py.len. destruct rest; cbn; lia.
  - cbn [list_ascii_of_string In] in Hno.
    rewrite str_app_cons. cbn [Py.find_at String.prefix].
    destruct (ascii_dec " " c) as [Heq|Hc].
    + exfalso. apply Hno. by left.
    + rewrite IH by (intros Hin; apply Hno; by right).
      unfold Py.len. simpl String.length. lia.
Qed.

(** [(a + h + " " + rest).find(" ", len(a))] *)
Lemma find_from (a h rest : string) :
  ¬ In " "%char (list_ascii_of_string h) →
  Py.find (a +:+ h +:+ " " +:+ rest) " " (Py.len a) = Py.len a + Py.len h.
Proof.
  intros Hno. pose proof (len_nonneg a). pose proof (len_nonneg h).
  pose proof (len_nonneg rest).
  unfold Py.find.
  destruct (Z.ltb_spec (Py.len a) 0) as [Hlt|_]; [lia|].
  destruct (Z.ltb_spec (Py.len (a +:+ h +:+ " " +:+ rest)) (Py.len a)) as [Hlt|_].
  - rewrite !len_app in Hlt. pose proof (len_nonneg " "). lia.
  - rewrite slice_suffix. by apply find_at_first_space.
Qed.

(** [(a + rest).find(" ", len(a))] when [rest] holds no space. *)
Lemma find_from_none (a rest : string) :
  ¬ In " "%char (list_ascii_of_string rest) →
  Py.find (a +:+ rest) " " (Py.len a) = -1.
Proof.
  intros Hno. pose proof (len_nonneg a). pose proof (len_nonneg rest).
  unfold Py.find.
  destruct (Z.ltb_spec (Py.len a) 0) as [Hlt|_]; [lia|].
  destruct (Z.ltb_spec (Py.len (a +:+ rest)) (Py.len a)) as [Hlt|_].
  - rewrite len_app in Hlt. lia.
  - rewrite slice_suffix. by apply find_at_no_space.
Qed.

(** ** The parser on lines with separators *)

Lemma split_fields_three (h l p : string) :
  no_char " " h → no_char " " l →
  split_fields (h +:+ " " +:+ l +:+ " " +:+ p) = (h, l, p).
Proof.
  intros Hh Hl. unfold split_fields.
  assert (Py.find (h +:+ " " +:+ l +:+ " " +:+ p) " " 0 = Py.len h) as ->.
  { exact (find_from "" h (l +:+ " " +:+ p) Hh). }
  assert (Py.find (h +:+ " " +:+ l +:+ " " +:+ p) " " (Py.len h + 1)
          = Py.len h + 1 + Py.len l) as ->.
  { pose proof (find_from (h +:+ " ") l p Hl) as H.
    rewrite len_app, str_app_assoc in H. exact H. }
  f_equal; [f_equal|].
  - apply slice_prefix.
  - pose proof (slice_middle (h +:+ " ") l (" " +:+ p)) as H.
    rewrite len_app, str_app_assoc in H. exact H.
  - pose proof (slice_suffix (h +:+ " " +:+ l +:+ " ") p) as H.
    rewrite !len_app, !str_app_assoc in H.
    replace (Py.len h + 1 + Py.len l + 1)
      with (Py.len h + (Py.len " " + (Py.len l + Py.len " ")))
      by (change (Py.len " ") with 1; lia).
    exact H.
Qed.

(** X1. A line [hash SP length SP path] whose hash and length hold no
    space is split into exactly these three fields, whatever the path
    holds, spaces included. *)
Theorem split_fields_well_formed (h l p : string) :
  no_char " " h → no_char " " l →
  split_fields (h +:+ " " +:+ l +:+ " " +:+ p) = (h, l, p).
Proof. intros Hh Hl. by apply split_fields_three. Qed.

Lemma split_fields_well_formed_witness :
  split_fields ("abc123 10 ./my dir/my file.txt" +:+ nl)
  = ("abc123", "10", "./my dir/my file.txt" +:+ nl).
Proof.
  apply (split_fields_well_formed "abc123" "10" ("./my dir/my file.txt" +:+ nl)).
  - intros H. vm_compute in H. intuition discriminate.
  - intros H. vm_compute in H. intuition discriminate.
Defined.

Lemma mem_single c d : Py.mem c (String d "") = Ascii.eqb c d.
Proof. unfold Py.mem. cbn. apply orb_false_r. Qed.

Lemma lstrip_plain s : plain_start s → Py.lstrip s "./" = s.
Proof. destruct s as [|c s]; [done|]. intros H. cbn in *. by rewrite H. Qed.

Lemma rstrip_keep p chars :
  (∀ c, In c (list_ascii_of_string p) → Py.mem c chars = false) →
  Py.rstrip p chars = p.
Proof.
  induction p as [|c p IH]; intros Hno; [done|].
  cbn [Py.rstrip]. rewrite IH by (intros d Hd; apply Hno; by right).
  destruct p; [|done]. rewrite Hno; [done | by left].
Qed.

(** A trailing character of the set is dropped like those before it. *)
Lemma rstrip_snoc s c chars :
  Py.mem c chars = true →
  Py.rstrip (s +:+ String c "") chars = Py.rstrip s chars.
Proof.
  intros Hc. induction s as [|x s IH].
  - change ("" +:+ String c "") with (String c ""). cbn. by rewrite Hc.
  - rewrite str_app_cons. cbn [Py.rstrip]. by rewrite IH.
Qed.

Lemma rstrip_line p (eol : bool) :
  no_char (ascii_of_nat 10) p →
  Py.rstrip (p +:+ (if eol then nl else "")) nl = p.
Proof.
  intros Hno.
  assert (Py.rstrip p nl = p) as Hp.
  { apply rstrip_keep. intros c Hc. unfold nl. rewrite mem_single.
    destruct (Ascii.eqb_spec c (ascii_of_nat 10)) as [->|]; [|done].
    by destruct Hno. }
  destruct eol.
  - unfold nl at 1. rewrite rstrip_snoc; [done | reflexivity].
  - by rewrite str_app_nil_r.
Qed.

Lemma plain_start_line p (eol : bool) :
  plain_start p → plain_start (p +:+ (if eol then nl else "")).
Proof.
  destruct p as [|c p]; [by destruct eol|]. intros H. by rewrite str_app_cons.
Qed.

(** X2. A manifest line [hash SP length SP path] whose path, after an
    optional leading [./], begins with neither a dot nor a slash and holds
    no line terminator, gives the record (hash, length, join(dir, path)),
    with or without the terminator at the end of the line. *)
Theorem parse_line_well_formed (dir h l p : string) (dotslash eol : bool) :
  no_char " " h → no_char " " l →
  plain_start p → no_char (ascii_of_nat 10) p →
  parse_line dir (h +:+ " " +:+ l +:+ " "
                  +:+ (if dotslash then "./" else "") +:+ p
                  +:+ (if eol then nl else ""))
  = (h, l, posixpath.join dir p).
Proof.
  intros Hh Hl Hp Hnl. unfold parse_line.
  rewrite split_fields_three by done.
  assert (Py.lstrip ((if dotslash then "./" else "") +:+ p
                     +:+ (if eol then nl else "")) "./"
          = p +:+ (if eol then nl else "")) as ->.
  { pose proof (lstrip_plain _ (plain_start_line p eol Hp)) as H.
    destruct dotslash; exact H. }
  by rewrite rstrip_line.
Qed.

Lemma parse_line_well_formed_witness :
  parse_line "data" ("abc123 10 ./sub/my file.txt" +:+ nl)
  = ("abc123", "10", "data/sub/my file.txt").
Proof.
  apply (parse_line_well_formed "data" "abc123" "10" "sub/my file.txt" true true).
  - intros H. vm_compute in H. intuition discriminate.
  - intros H. vm_compute in H. intuition discriminate.
  - reflexivity.
  - intros H. vm_compute in H. intuition discriminate.
Defined.

Lemma but_last_snoc s :
  s ≠ "" → ∃ c, s = but_last s +:+ String c "".
Proof.
  induction s as [|x s IH]; [done|]. intros _.
  destruct s as [|y s]; [by exists x|].
  destruct IH as [c Hc]; [done|]. exists c.
  change (but_last (String x (String y s)))
    with (String x (but_last (String y s))).
  rewrite str_app_cons. by f_equal.
Qed.

(** [(a + rest)[len(a) : -1]] is [rest] without its last character. *)
Lemma slice_to_minus_1 (a rest : string) :
  Py.slice (a +:+ rest) (Some (Py.len a)) (Some (-1)) = but_last rest.
Proof.
  pose proof (len_nonneg a). pose proof (len_nonneg rest).
  destruct (decide (rest = "")) as [->|Hne].
  - rewrite str_app_nil_r. unfold Py.slice.
    rewrite clamp_inside, clamp_minus_1 by lia.
    by destruct (Z.ltb_spec (Py.len a) (Z.max 0 (Py.len a - 1))); [lia|].
  - destruct (but_last_snoc rest Hne) as [c Hc].
    pose proof (len_nonneg (but_last rest)).
    assert (Py.len rest = Py.len (but_last rest) + 1) as Hlen.
    { rewrite Hc at 1. by rewrite len_app. }
    transitivity (Py.slice (a +:+ but_last rest +:+ String c "")
                    (Some (Py.len a))
                    (Some (Py.len a + Py.len (but_last rest))));
      [|apply slice_middle].
    rewrite <- Hc. unfold Py.slice. rewrite len_app, Hlen.
    rewrite clamp_minus_1 by lia.
    rewrite (clamp_inside _ (Py.len a)) by lia.
    rewrite (clamp_inside _ (Py.len a + Py.len (but_last rest))) by lia.
    by replace (Z.max 0 (Py.len a + (Py.len (but_last rest) + 1) - 1))
      with (Py.len a + Py.len (but_last rest)) by lia.
Qed.

(** X3. A line with a single space, [hash SP rest], is not rejected: the
    second search fails, so the length field is [rest] without its last
    character and the raw path field is the whole line, hash included. *)
Theorem split_fields_one_space (h rest : string) :
  no_char " " h → no_char " " rest →
  split_fields (h +:+ " " +:+ rest)
  = (h, but_last rest, h +:+ " " +:+ rest).
Proof.
  intros Hh Hrest. unfold split_fields.
  assert (Py.find (h +:+ " " +:+ rest) " " 0 = Py.len h) as ->.
  { exact (find_from "" h rest Hh). }
  assert (Py.find (h +:+ " " +:+ rest) " " (Py.len h + 1) = -1) as ->.
  { pose proof (find_from_none (h +:+ " ") rest Hrest) as H.
    rewrite len_app, str_app_assoc in H. exact H. }
  f_equal; [f_equal|].
  - apply slice_prefix.
  - pose proof (slice_to_minus_1 (h +:+ " ") rest) as H.
    rewrite len_app, str_app_assoc in H. exact H.
  - apply slice_from_0.
Qed.

Lemma split_fields_one_space_witness :
  split_fields ("abc123 10" +:+ nl) = ("abc123", "10", "abc123 10" +:+ nl).
Proof.
  apply (split_fields_one_space "abc123" ("10" +:+ nl)).
  - intros H. vm_compute in H. intuition discriminate.
  - intros H. vm_compute in H. intuition discriminate.
Defined.

(** ** The directory argument *)

Lemma rstrip_seps s n : Py.rstrip (s +:+ posixpath.seps n) "/" = Py.rstrip s "/".
Proof.
  revert s. induction n as [|n IH]; intros s.
  - change (posixpath.seps 0) with "". by rewrite str_app_nil_r.
  - change (posixpath.seps (S n)) with ("/" +:+ posixpath.seps n).
    rewrite <- str_app_assoc, IH. by apply rstrip_snoc.
Qed.

(** X4. Trailing slashes on a directory argument change nothing: the run
    is the same state, lines printed included, as with the bare name. *)
Theorem trailing_slashes_tolerated disk dir n argv st :
  run disk ((dir +:+ posixpath.seps n) :: argv) st = run disk (dir :: argv) st.
Proof. rewrite !run_cons. by rewrite rstrip_seps. Qed.

Lemma rstrip_all s chars :
  (∀ c, In c (list_ascii_of_string s) → Py.mem c chars = true) →
  Py.rstrip s chars = "".
Proof.
  induction s as [|x s IH]; intros Hall; [done|].
  cbn [Py.rstrip]. rewrite IH by (intros c Hc; apply Hall; by right).
  rewrite Hall; [done | by left].
Qed.

(** X5. An argument made of slashes only, the root directory [/] for one,
    is stripped to the empty name: the manifest opened is [.hashcheck] of
    the working directory, and the run is that of the empty argument. *)
Theorem slash_only_argument disk dir argv st :
  (∀ c, In c (list_ascii_of_string dir) → c = "/"%char) →
  posixpath.join (Py.rstrip dir "/") ".hashcheck" = ".hashcheck"
  ∧ run disk (dir :: argv) st = run disk argv (hashcheck disk "" st).
Proof.
  intros Hall.
  assert (Py.rstrip dir "/" = "") as Hstrip.
  { apply rstrip_all. intros c Hc. by rewrite (Hall c Hc). }
  rewrite run_cons, Hstrip. done.
Qed.

Lemma slash_only_argument_witness :
  let disk := disk_of [(".hashcheck", "h1 100 ./x.bin" +:+ nl)] in
  posixpath.join (Py.rstrip "/" "/") ".hashcheck" = ".hashcheck"
  ∧ run disk ["/"] initial = run disk [] (hashcheck disk "" initial).
Proof.
  intros disk. apply (slash_only_argument disk "/" [] initial).
  intros c [<-|[]]. reflexivity.
Defined.

(** The last character that [rstrip] leaves is outside the set. *)
Lemma rstrip_last s chars b c :
  Py.rstrip s chars = b +:+ String c "" → Py.mem c chars = false.
Proof.
  revert b. induction s as [|x s IH]; intros b Heq.
  - by destruct b.
  - cbn [Py.rstrip] in Heq.
    destruct (Py.rstrip s chars) as [|y r] eqn:Hr.
    + destruct (Py.mem x chars) eqn:Hx; [by destruct b|].
      destruct b as [|z b]; [by injection Heq as -> | ].
      rewrite str_app_cons in Heq. injection Heq as _ Heq. by destruct b.
    + destruct b as [|z b]; [done|].
      rewrite str_app_cons in Heq. injection Heq as _ Heq.
      by apply (IH b).
Qed.

Lemma endswith_snoc b c d :
  Py.endswith (b +:+ String c "") (String d "") = Ascii.eqb c d.
Proof.
  pose proof (len_nonneg b).
  unfold Py.endswith. rewrite len_app.
  change (Py.len (String c "")) with 1. change (Py.len (String d "")) with 1.
  replace (Py.len b + 1 - 1) with (Py.len b) by lia.
  rewrite slice_suffix.
  destruct (Z.leb_spec 1 (Py.len b + 1)) as [_|Hlt]; [|lia].
  rewrite andb_true_r. cbn. by destruct (Ascii.eqb c d).
Qed.

Lemma endswith_rstrip d : Py.endswith (Py.rstrip d "/") "/" = false.
Proof.
  destruct (decide (Py.rstrip d "/" = "")) as [->|Hne]; [done|].
  destruct (but_last_snoc _ Hne) as [c Hc]. rewrite Hc, endswith_snoc.
  pose proof (rstrip_last _ _ _ _ Hc) as Hmem.
  by rewrite mem_single in Hmem.
Qed.

Lemma plain_start_lstrip s : plain_start (Py.lstrip s "./").
Proof.
  induction s as [|c s IH]; [done|]. cbn [Py.lstrip].
  by destruct (Py.mem c "./") eqn:Hc.
Qed.

Lemma plain_start_rstrip s chars : plain_start s → plain_start (Py.rstrip s chars).
Proof.
  destruct s as [|c s]; [done|]. intros H. cbn [Py.rstrip].
  destruct (Py.rstrip s chars); [|done]. by destruct (Py.mem c chars).
Qed.

Lemma plain_start_not_absolute s : plain_start s → Py.startswith s "/" = false.
Proof.
  destruct s as [|c s]; [done|]. intros H. unfold Py.startswith.
  cbn [String.prefix]. destruct (ascii_dec "/" c) as [<-|]; [|done].
  by vm_compute in H.
Qed.

(** X6. With a directory argument that is not made of slashes alone,
    every record of its manifest gets the path [dir + "/" + rel], where
    [dir] is the argument without trailing slashes and [rel] begins with
    neither a dot nor a slash: one separator, and no line can give an
    absolute path or one outside the prefix [dir/]. *)
Theorem record_path_under_directory d line :
  let dir := Py.rstrip d "/" in
  let rel := Py.rstrip (Py.lstrip (snd (split_fields line)) "./") nl in
  dir ≠ "" →
  snd (parse_line dir line) = dir +:+ "/" +:+ rel ∧ plain_start rel.
Proof.
  intros dir rel Hne.
  assert (plain_start rel) as Hrel
    by apply plain_start_rstrip, plain_start_lstrip.
  split; [|done].
  assert (snd (parse_line dir line) = posixpath.join dir rel) as ->.
  { subst rel. unfold parse_line.
    by destruct (split_fields line) as [[filehash filelength] filepath]. }
  unfold posixpath.join. change posixpath.sep with "/".
  rewrite (plain_start_not_absolute rel Hrel).
  subst dir. rewrite endswith_rstrip.
  destruct (String.eqb_spec (Py.rstrip d "/") ""); done.
Qed.

Lemma record_path_under_directory_witness :
  snd (parse_line "data" ("abc123 10 /etc/passwd" +:+ nl)) = "data/etc/passwd"
  ∧ plain_start "etc/passwd".
Proof.
  apply (record_path_under_directory "data//" ("abc123 10 /etc/passwd" +:+ nl)).
  discriminate.
Defined.

(** ** The index and the output over a list of records *)

Lemma process_records_cons r rs st :
  process_records (r :: rs) st = process_records rs (process_record r st).
Proof. reflexivity. Qed.

Lemma process_records_app rs1 rs2 st :
  process_records (rs1 ++ rs2) st = process_records rs2 (process_records rs1 st).
Proof. apply fold_left_app. Qed.

(** The loop of [hashcheck] over the lines is the loop over their
    records. *)
Lemma fold_lines_as_records dir lines st :
  fold_left (fun st line => process_record (parse_line dir line) st) lines st
  = process_records (map (parse_line dir) lines) st.
Proof.
  revert st. induction lines as [|line lines IH]; intros st; [done|].
  cbn [fold_left map]. rewrite process_records_cons. apply IH.
Qed.

Lemma hashcheck_as_records disk dir text st :
  disk (posixpath.join dir ".hashcheck") = Some text →
  hashcheck disk dir st
  = process_records (map (parse_line dir) (readlines text))
      (print (dir +:+ ": processing .hashcheck")
             (opened (posixpath.join dir ".hashcheck") st)).
Proof.
  intros Hopen. unfold hashcheck. rewrite Hopen. apply fold_lines_as_records.
Qed.

Lemma entries_of_cons h r rs :
  entries_of h (r :: rs) = entries_of h [r] ++ entries_of h rs.
Proof. unfold entries_of. cbn [flat_map]. by rewrite app_nil_r. Qed.

Lemma entries_of_app h rs1 rs2 :
  entries_of h (rs1 ++ rs2) = entries_of h rs1 ++ entries_of h rs2.
Proof. apply flat_map_app. Qed.

Lemma process_record_lookup r st h :
  files (process_record r st) !! h
  = match entries_of h [r] with
    | [] => files st !! h
    | es => Some (default [] (files st !! h) ++ es)
    end.
Proof.
  destruct r as [[h' l] p]. unfold entries_of. cbn [flat_map].
  rewrite app_nil_r.
  destruct (String.eqb_spec l "0") as [->|Hl].
  - rewrite process_record_zero. by rewrite andb_false_r.
  - destruct (String.eqb_spec h' h) as [->|Hh]; cbn [andb negb].
    + by apply process_record_bucket.
    + apply process_record_other. congruence.
Qed.

Lemma process_records_lookup rs st h :
  files (process_records rs st) !! h
  = match entries_of h rs with
    | [] => files st !! h
    | es => Some (default [] (files st !! h) ++ es)
    end.
Proof.
  revert st. induction rs as [|r rs IH]; intros st; [done|].
  rewrite (entries_of_cons h r rs).
  rewrite process_records_cons, IH, process_record_lookup.
  destruct (entries_of h [r]) as [|e es]; [done|].
  destruct (entries_of h rs) as [|e' es'].
  - by rewrite app_nil_r.
  - cbn [default id app]. by rewrite <- app_assoc.
Qed.

Lemma process_records_bucket rs st h :
  default [] (files (process_records rs st) !! h)
  = default [] (files st !! h) ++ entries_of h rs.
Proof.
  rewrite process_records_lookup.
  destruct (entries_of h rs); [by rewrite app_nil_r | done].
Qed.

(** X7. The index after a manifest: the bucket of a hash is what it was
    before, followed by the (length, path) entries of the manifest's
    records of that hash and of non-zero length, in line order; a hash
    with no such record keeps its bucket, or stays absent. *)
Theorem hashcheck_index disk dir text st h :
  disk (posixpath.join dir ".hashcheck") = Some text →
  files (hashcheck disk dir st) !! h
  = match entries_of h (map (parse_line dir) (readlines text)) with
    | [] => files st !! h
    | es => Some (default [] (files st !! h) ++ es)
    end.
Proof.
  intros Hopen. rewrite (hashcheck_as_records _ _ _ _ Hopen).
  by rewrite process_records_lookup.
Qed.

Lemma hashcheck_index_witness :
  let disk := disk_of [("A/.hashcheck",
                        "h1 5 ./a" +:+ nl +:+ "h2 7 ./b" +:+ nl
                        +:+ "h1 0 ./c" +:+ nl +:+ "h1 5 ./d" +:+ nl)] in
  files (hashcheck disk "A" initial) !! "h1" = Some [("5", "A/a"); ("5", "A/d")].
Proof.
  intros disk.
  etransitivity.
  - apply (hashcheck_index disk "A"
             ("h1 5 ./a" +:+ nl +:+ "h2 7 ./b" +:+ nl
              +:+ "h1 0 ./c" +:+ nl +:+ "h1 5 ./d" +:+ nl) initial "h1").
    reflexivity.
  - vm_compute. reflexivity.
Defined.

Lemma process_records_snoc_stdout rs h l p st :
  l ≠ "0" →
  stdout (process_records (rs ++ [(h, l, p)]) st)
  = stdout (process_records rs st) ++
    match first_same_length l (default [] (files st !! h) ++ entries_of h rs) with
    | Some (l2, p2) => [report_line h l l2 p p2]
    | None => []
    end.
Proof.
  intros Hl. rewrite process_records_app.
  change (process_records [(h, l, p)] (process_records rs st))
    with (process_record (h, l, p) (process_records rs st)).
  rewrite process_record_stdout by done.
  by rewrite process_records_bucket.
Qed.

(** X8. What one more record prints: after any records [rs], a record
    (h, l, p) of non-zero length prints the report against the first
    entry of length [l] among the bucket of [h] at the start followed by
    the entries of [rs] for [h], and nothing if there is none. *)
Theorem report_of_next_record rs h l p st :
  l ≠ "0" →
  stdout (process_records (rs ++ [(h, l, p)]) st)
  = stdout (process_records rs st) ++
    match first_same_length l (default [] (files st !! h) ++ entries_of h rs) with
    | Some (l2, p2) => [report_line h l l2 p p2]
    | None => []
    end.
Proof. intros Hl. by apply process_records_snoc_stdout. Qed.

Lemma report_of_next_record_witness :
  stdout (process_records [("h", "5", "A/a"); ("h", "7", "A/b");
                           ("h", "5", "A/c"); ("h", "5", "B/d")] initial)
  = [report_line "h" "5" "5" "A/c" "A/a"; report_line "h" "5" "5" "B/d" "A/a"].
Proof.
  apply (report_of_next_record
           [("h", "5", "A/a"); ("h", "7", "A/b"); ("h", "5", "A/c")]
           "h" "5" "B/d" initial).
  discriminate.
Defined.

Lemma first_same_length_is_Some l bucket :
  is_Some (first_same_length l bucket) ↔ ∃ p, (l, p) ∈ bucket.
Proof.
  split.
  - intros [[l2 p2] Hfirst].
    apply first_same_length_Some in Hfirst as (before & after & -> & _ & ->).
    exists p2. apply elem_of_app. right. apply list_elem_of_here.
  - intros [p Hin].
    destruct (first_same_length l bucket) as [e|] eqn:Hfirst; [by eexists|].
    apply first_same_length_None in Hfirst.
    rewrite Forall_forall in Hfirst. by destruct (Hfirst _ Hin).
Qed.

Lemma elem_of_entries_of h l p rs :
  (l, p) ∈ entries_of h rs ↔ (h, l, p) ∈ rs ∧ l ≠ "0".
Proof.
  unfold entries_of. rewrite list_elem_of_In, in_flat_map. split.
  - intros ([[h' l'] p'] & Hin & Hr).
    destruct (String.eqb_spec h' h) as [->|]; [|done].
    destruct (String.eqb_spec l' "0") as [|Hl']; [done|].
    cbn [andb negb] in Hr. destruct Hr as [[= -> ->]|[]].
    split; [by apply list_elem_of_In | done].
  - intros [Hin Hl]. exists (h, l, p). split; [by apply list_elem_of_In|].
    rewrite String.eqb_refl.
    destruct (String.eqb_spec l "0"); [done | by left].
Qed.

(** X9. Duplicate detection: a record of non-zero length is reported
    exactly when an entry of the same length was in the bucket of its hash
    at the start or an earlier record has the same hash and the same
    length token; the paths play no part. *)
Theorem reported_iff_seen_before rs h l p st :
  l ≠ "0" →
  stdout (process_records (rs ++ [(h, l, p)]) st) ≠ stdout (process_records rs st)
  ↔ (∃ p', (l, p') ∈ default [] (files st !! h)) ∨ (∃ p', (h, l, p') ∈ rs).
Proof.
  intros Hl. rewrite process_records_snoc_stdout by done.
  set (bucket := default [] (files st !! h) ++ entries_of h rs).
  assert (is_Some (first_same_length l bucket)
          ↔ (∃ p', (l, p') ∈ default [] (files st !! h)) ∨ (∃ p', (h, l, p') ∈ rs))
    as <-.
  { rewrite first_same_length_is_Some. subst bucket. split.
    - intros [p' Hin]. apply elem_of_app in Hin as [Hin|Hin]; [by eauto|].
      apply elem_of_entries_of in Hin as [Hin _]. by eauto.
    - intros [[p' Hin]|[p' Hin]]; exists p'; apply elem_of_app; [by left|].
      right. by apply elem_of_entries_of. }
  destruct (first_same_length l bucket) as [[l2 p2]|]; split.
  - by eexists.
  - intros _ Heq. rewrite <- (app_nil_r (stdout _)) in Heq at 2.
    by apply app_inv_head in Heq.
  - rewrite app_nil_r. done.
  - by intros [? ?].
Qed.

Lemma reported_iff_seen_before_witness :
  stdout (process_records ([("h", "5", "A/a"); ("g", "5", "A/b")]
                           ++ [("h", "5", "B/c")]) initial)
  ≠ stdout (process_records [("h", "5", "A/a"); ("g", "5", "A/b")] initial).
Proof.
  apply (reported_iff_seen_before
           [("h", "5", "A/a"); ("g", "5", "A/b")] "h" "5" "B/c" initial).
  - discriminate.
  - right. exists "A/a". apply list_elem_of_here.
Defined.

(** ** Whole runs *)


Lemma process_records_extends rs st h b :
  files st !! h = Some b →
  ∃ more, files (process_records rs st) !! h = Some (b ++ more).
Proof.
  intros Hb. rewrite process_records_lookup, Hb.
  destruct (entries_of h rs) as [|e es].
  - exists []. by rewrite app_nil_r.
  - by exists (e :: es).
Qed.

Lemma hashcheck_extends disk dir st h b :
  files st !! h = Some b →
  ∃ more, files (hashcheck disk dir st) !! h = Some (b ++ more).
Proof.
  intros Hb.
  destruct (disk (posixpath.join dir ".hashcheck")) as [text|] eqn:Hopen.
  - rewrite (hashcheck_as_records _ _ _ _ Hopen).
    by apply process_records_extends.
  - rewrite hashcheck_missing by done. exists []. by rewrite app_nil_r.
Qed.

(** X10. The index only grows: a bucket present at some point of a run is
    a prefix of the bucket of the same hash at the end; no entry is
    removed or reordered and no key is deleted. *)
Theorem index_only_grows disk argv st h b :
  files st !! h = Some b →
  ∃ more, files (run disk argv st) !! h = Some (b ++ more).
Proof.
  revert st b. induction argv as [|dir argv IH]; intros st b Hb.
  - exists []. by rewrite app_nil_r.
  - rewrite run_cons.
    destruct (hashcheck_extends disk (Py.rstrip dir "/") st h b Hb) as [m1 H1].
    destruct (IH _ _ H1) as [m2 H2]. exists (m1 ++ m2).
    by rewrite app_assoc.
Qed.

Lemma index_only_grows_witness :
  let disk := disk_of [("B/.hashcheck", "h1 100 ./y.bin" +:+ nl)] in
  let st := State {[ "h1" := [("100", "A/x.bin")] ]} [] [] in
  ∃ more, files (run disk ["B"] st) !! "h1" = Some ([("100", "A/x.bin")] ++ more).
Proof.
  intros disk st.
  apply (index_only_grows disk ["B"] st "h1" [("100", "A/x.bin")]).
  reflexivity.
Defined.









Lemma process_records_output rs st :
  ∃ matches,
    stdout (process_records rs st) = stdout st ++ matches
    ∧ (length matches ≤ length rs)%nat.
Proof.
  revert st. induction rs as [|[[h l] p] rs IH]; intros st.
  - exists []. by rewrite app_nil_r.
  - rewrite process_records_cons.
    destruct (IH (process_record (h, l, p) st)) as (ms & Hout & Hlen).
    destruct (String.eqb_spec l "0") as [->|Hl].
    + rewrite process_record_zero in Hout. exists ms.
      split; [done | cbn [length]; lia].
    + rewrite process_record_stdout in Hout by done.
      rewrite <- app_assoc in Hout. eexists. split; [exact Hout|].
      rewrite length_app. cbn [length].
      destruct (first_same_length l _) as [[l2 p2]|]; cbn [length]; lia.
Qed.

(** X12. The output of one directory: first its diagnostic, one line that
    says whether the manifest was found, then the match lines, at most one
    for each line of the manifest and none when there is no manifest. *)
Theorem hashcheck_output_shape disk dir st :
  ∃ matches,
    stdout (hashcheck disk dir st)
    = stdout st
      ++ (dir +:+ match disk (posixpath.join dir ".hashcheck") with
                  | Some _ => ": processing .hashcheck"
                  | None => ": no .hashcheck found"
                  end) :: matches
    ∧ (length matches
       ≤ match disk (posixpath.join dir ".hashcheck") with
         | Some text => length (readlines text)
         | None => 0
         end)%nat.
Proof.
  destruct (disk (posixpath.join dir ".hashcheck")) as [text|] eqn:Hopen.
  - rewrite (hashcheck_as_records _ _ _ _ Hopen).
    destruct (process_records_output (map (parse_line dir) (readlines text))
                (print (dir +:+ ": processing .hashcheck")
                       (opened (posixpath.join dir ".hashcheck") st)))
      as (ms & Hout & Hlen).
    exists ms. rewrite Hout. rewrite length_map in Hlen.
    split; [|done]. cbn [print opened stdout]. by rewrite <- app_assoc.
  - exists []. by rewrite hashcheck_missing.
Qed.
